(* Shallow embedding of src/backend/app.py (MedTech image processing API).

   The repository's code is the request handler [process_image] and the four
   helpers [read_image_file], [increase_contrast], [apply_gaussian_blur] and
   [encode_image].  The third-party calls they make (PIL, NumPy, OpenCV,
   Starlette's Response) are the fields of the record [Lib]; their contracts,
   where a theorem needs them, are the fields of [ShapeLaws].

   Python exceptions are modelled by a writer/exception monad [M]: a
   computation yields either a value or a raised exception, together with the
   trace of pipeline steps it entered (reading the upload, decoding,
   filtering, encoding).  Logging calls have no effect on any result and are
   left out. *)

From Stdlib Require Import String List Bool Arith Lia QArith.
From Stdlib Require Import Strings.Byte.
Import ListNotations.
Open Scope nat_scope.
Open Scope string_scope.

(* ------------------------------------------------------------------------- *)
(** * Data model *)

Definition bytes := list byte.

(** A PIL image as far as the code observes it: its mode, its size and its
    container format (the code never inspects the latter). *)
Record pil_image := mk_pil {
  pil_mode : string;
  pil_width : nat;
  pil_height : nat;
  pil_format : string;
  pil_payload : list nat
}.

(** A NumPy array of 8-bit samples: its shape, as [ndarray.shape], and its
    samples. *)
Record ndarray := mk_nd {
  nd_shape : list nat;
  nd_data : list nat
}.

Inductive color_code := COLOR_RGB2BGR | COLOR_BGR2LAB | COLOR_LAB2BGR.

(** Python exceptions reaching the handler.  [LibError] stands for any
    exception raised by a library call (cv2.error, OSError, ValueError,
    PIL.UnidentifiedImageError, ...): all are subclasses of [Exception]. *)
Inductive exn :=
| HTTPException (status_code : nat) (detail : string)
| LibError (msg : string)
| ValueError (msg : string)
| AttributeError (msg : string)
| GenericException (msg : string).

Definition str_exn (e : exn) : string :=
  match e with
  | HTTPException _ d => d
  | LibError m | ValueError m | AttributeError m | GenericException m => m
  end.

(** Steps of the pipeline, recorded when they are entered. *)
Inductive event :=
| EvRead        (* await image.read() *)
| EvDecode      (* read_image_file *)
| EvContrast    (* increase_contrast *)
| EvBlur        (* apply_gaussian_blur *)
| EvEncode.     (* encode_image *)

Definition event_eqb (a b : event) : bool :=
  match a, b with
  | EvRead, EvRead | EvDecode, EvDecode | EvContrast, EvContrast
  | EvBlur, EvBlur | EvEncode, EvEncode => true
  | _, _ => false
  end.

(** The uploaded multipart request: the [UploadFile] part and the [phase]
    form field.  [content_type] is [None] when the part carries no
    Content-Type header (Starlette's [UploadFile.content_type]). *)
Record request := mk_request {
  filename : string;
  content_type : option string;
  file_bytes : bytes;
  phase : string
}.

(** A Starlette [Response]. *)
Record response := mk_response {
  content : bytes;
  media_type : string;
  headers : list (string * string)
}.

(* ------------------------------------------------------------------------- *)
(** * Writer/exception monad *)

Definition M (A : Type) : Type := ((A + exn) * list event)%type.

Definition ret {A} (a : A) : M A := (inl a, []).
Definition raise {A} (e : exn) : M A := (inr e, []).
Definition emit (ev : event) : M unit := (inl tt, [ev]).

Definition bind {A B} (m : M A) (f : A -> M B) : M B :=
  match m with
  | (inl a, t1) => let (r, t2) := f a in (r, app t1 t2)
  | (inr e, t1) => (inr e, t1)
  end.

(** [try m except e: h e] *)
Definition try_except {A} (m : M A) (h : exn -> M A) : M A :=
  match m with
  | (inr e, t1) => let (r, t2) := h e in (r, app t1 t2)
  | ok => ok
  end.

(** A library call that raises when it yields [None]. *)
Definition call {A} (what : string) (o : option A) : M A :=
  match o with
  | Some a => ret a
  | None => raise (LibError what)
  end.

Notation "x <- m ;; k" := (bind m (fun x => k))
  (at level 61, m at next level, right associativity).
Notation "m ;;; k" := (bind m (fun _ => k))
  (at level 61, right associativity).

Definition result_of {A} (m : M A) : A + exn := fst m.
Definition trace_of {A} (m : M A) : list event := snd m.

(* ------------------------------------------------------------------------- *)
(** * Library interface *)

(** The third-party functions called by app.py; [None] means the call
    raised an exception. *)
Record Lib := mk_lib {
  (* PIL.Image.open(BytesIO(b)) *)
  Image_open : bytes -> option pil_image;
  (* image.convert(mode) *)
  pil_convert : string -> pil_image -> option pil_image;
  (* np.array(image); loads the pixel data, which may fail (truncated file) *)
  np_array : pil_image -> option ndarray;
  (* cv2.cvtColor(img, code) *)
  cvtColor : ndarray -> color_code -> option ndarray;
  (* cv2.split(img) *)
  cv_split : ndarray -> option (list ndarray);
  (* cv2.merge(channels) *)
  cv_merge : list ndarray -> option ndarray;
  (* cv2.createCLAHE(clipLimit, tileGridSize).apply(img) *)
  clahe_apply : Q -> nat * nat -> ndarray -> option ndarray;
  (* cv2.GaussianBlur(img, ksize, sigmaX) *)
  GaussianBlur : ndarray -> nat * nat -> Q -> option ndarray;
  (* cv2.imencode(ext, img) returns (success, buffer); buffer.tobytes() *)
  imencode : string -> ndarray -> option (bool * bytes);
  (* Starlette encodes header values as latin-1 when building a Response *)
  latin1_encodable : string -> bool
}.

(* ------------------------------------------------------------------------- *)
(** * app.py *)

Section App.

Context (L : Lib).

(** [increase_contrast] (app.py lines 41-69); its [except: raise] rethrows
    unchanged. *)
Definition increase_contrast (img : ndarray) : M ndarray :=
  emit EvContrast ;;;
  lab <- call "cvtColor" (cvtColor L img COLOR_BGR2LAB) ;;
  chans <- call "split" (cv_split L lab) ;;
  match chans with
  | [l; a; b] =>
      l_enhanced <- call "clahe" (clahe_apply L (3 # 1)%Q (8%nat, 8%nat) l) ;;
      enhanced_lab <- call "merge" (cv_merge L [l_enhanced; a; b]) ;;
      enhanced <- call "cvtColor" (cvtColor L enhanced_lab COLOR_LAB2BGR) ;;
      ret enhanced
  | _ => raise (ValueError "wrong number of values to unpack")
  end.

(** [apply_gaussian_blur] (app.py lines 72-90). *)
Definition apply_gaussian_blur (img : ndarray) : M ndarray :=
  emit EvBlur ;;;
  blurred <- call "GaussianBlur" (GaussianBlur L img (15%nat, 15%nat) 0%Q) ;;
  ret blurred.

(** [read_image_file] (app.py lines 93-121): every exception of the body
    becomes [HTTPException(400)]. *)
Definition read_image_file (file_bytes : bytes) : M ndarray :=
  emit EvDecode ;;;
  try_except
    (image <- call "Image.open" (Image_open L file_bytes) ;;
     image <- (if negb (String.eqb (pil_mode image) "RGB")
               then call "convert" (pil_convert L "RGB" image)
               else ret image) ;;
     img_array <- call "np.array" (np_array L image) ;;
     img_bgr <- call "cvtColor" (cvtColor L img_array COLOR_RGB2BGR) ;;
     ret img_bgr)
    (fun e => raise (HTTPException 400 ("Invalid image file: " ++ str_exn e))).

(** [encode_image] (app.py lines 124-143). *)
Definition encode_image (img : ndarray) : M bytes :=
  emit EvEncode ;;;
  r <- call "imencode" (imencode L ".png" img) ;;
  let (success, buffer) := r in
  if negb success then raise (GenericException "Failed to encode image")
  else ret buffer.

(** Starlette's [Response(content, media_type, headers)]: the header values
    are encoded as latin-1, which raises [UnicodeEncodeError] otherwise. *)
Definition make_response (c : bytes) (mt : string) (hs : list (string * string))
  : M response :=
  if forallb (fun kv => latin1_encodable L (snd kv)) hs
  then ret (mk_response c mt hs)
  else raise (GenericException "UnicodeEncodeError").

(** The filter selected in [process_image] (app.py lines 199-204). *)
Definition dispatch_filter (phase : string) (img : ndarray) : M ndarray :=
  if String.eqb phase "arterial" then increase_contrast img
  else (* venous *) apply_gaussian_blur img.

(** [process_image] (app.py lines 159-226). *)
Definition process_image (r : request) : M response :=
  if negb (String.eqb (phase r) "arterial" || String.eqb (phase r) "venous")
  then raise (HTTPException 400 "Invalid phase. Must be 'arterial' or 'venous'")
  else
  (* image.content_type.startswith('image/') *)
  match content_type r with
  | None => raise (AttributeError "'NoneType' object has no attribute 'startswith'")
  | Some ct =>
    if negb (String.prefix "image/" ct)
    then raise (HTTPException 400 "File must be an image (JPG/PNG)")
    else
    try_except
      (emit EvRead ;;;
       let file_bytes := file_bytes r in
       img <- read_image_file file_bytes ;;
       processed_img <- dispatch_filter (phase r) img ;;
       output_bytes <- encode_image processed_img ;;
       make_response output_bytes "image/png"
         [("Content-Disposition", "inline; filename=processed_" ++ filename r);
          ("X-Processing-Phase", phase r)])
      (fun e => match e with
                | HTTPException _ _ => raise e
                | _ => raise (HTTPException 500 ("Error processing image: " ++ str_exn e))
                end)
  end.

(** The spec's [process(bytes, phase)]: decode, filter, encode — the body of
    [process_image] between validation and the Response. *)
Definition process (b : bytes) (ph : string) : M bytes :=
  img <- read_image_file b ;;
  processed_img <- dispatch_filter ph img ;;
  encode_image processed_img.

End App.

(* ------------------------------------------------------------------------- *)
(** * Monad laws used below *)

Lemma bind_inl {A B} (m : M A) (f : A -> M B) a t :
  m = (inl a, t) -> bind m f = (fst (f a), app t (snd (f a))).
Proof. intros ->; simpl; destruct (f a); reflexivity. Qed.

Lemma bind_inr {A B} (m : M A) (f : A -> M B) e t :
  m = (inr e, t) -> bind m f = (inr e, t).
Proof. intros ->; reflexivity. Qed.

Lemma try_except_inl {A} (m : M A) h a t :
  m = (inl a, t) -> try_except m h = (inl a, t).
Proof. intros ->; reflexivity. Qed.

Lemma try_except_inr {A} (m : M A) h e t :
  m = (inr e, t) -> try_except m h = (fst (h e), app t (snd (h e))).
Proof. intros ->; simpl; destruct (h e); reflexivity. Qed.

Lemma app_nil_r' {A} (l : list A) : app l [] = l.
Proof. apply app_nil_r. Qed.

(** Case analysis on every library result and test in the goal. *)
Ltac split_calls :=
  unfold bind, try_except, call, ret, raise, emit in *;
  repeat (cbn beta iota zeta delta [fst snd app negb orb] in *;
          match goal with
          | |- context [match ?x with _ => _ end] =>
              lazymatch type of x with
              | M _ => fail
              | (_ * list event)%type => fail
              | _ => lazymatch x with
                     | context [match _ with _ => _ end] => fail
                     | _ => let E := fresh "E" in destruct x eqn:E
                     end
              end
          end).

Ltac str_facts :=
  repeat match goal with
  | H : negb _ = true |- _ => apply negb_true_iff in H
  | H : negb _ = false |- _ => apply negb_false_iff in H
  | H : String.eqb _ _ = true |- _ => apply String.eqb_eq in H
  | H : String.eqb _ _ = false |- _ => apply String.eqb_neq in H
  end.

Section Handler.

Context (L : Lib).

(** [read_image_file] either returns a buffer or raises [HTTPException(400)];
    in both cases its only step is the decode. *)
Lemma read_image_file_outcome (b : bytes) :
  (exists img, read_image_file L b = (inl img, [EvDecode])) \/
  (exists d, read_image_file L b = (inr (HTTPException 400 d), [EvDecode])).
Proof.
  unfold read_image_file. split_calls; solve [left; eauto | right; eauto].
Qed.

Lemma increase_contrast_trace img :
  trace_of (increase_contrast L img) = [EvContrast].
Proof. unfold increase_contrast, trace_of. split_calls; reflexivity. Qed.

Lemma apply_gaussian_blur_trace img :
  trace_of (apply_gaussian_blur L img) = [EvBlur].
Proof. unfold apply_gaussian_blur, trace_of. split_calls; reflexivity. Qed.

Lemma encode_image_trace img :
  trace_of (encode_image L img) = [EvEncode].
Proof. unfold encode_image, trace_of. split_calls; reflexivity. Qed.

Lemma make_response_trace c mt hs :
  trace_of (make_response L c mt hs) = [].
Proof. unfold make_response, trace_of. split_calls; reflexivity. Qed.

End Handler.

(* ------------------------------------------------------------------------- *)
(** * Request validation and phase dispatch *)

Section Validation.

Context (L : Lib).

Ltac unfold_handler :=
  unfold process_image, dispatch_filter, read_image_file, increase_contrast,
    apply_gaussian_blur, encode_image, make_response in *.

(** C4: a phase other than "arterial" and "venous" is rejected with
    HTTPException(400) before anything is read, decoded, filtered or
    encoded (the trace of the request is empty). *)
Theorem process_image_invalid_phase (r : request) :
  phase r <> "arterial" -> phase r <> "venous" ->
  process_image L r =
    (inr (HTTPException 400 "Invalid phase. Must be 'arterial' or 'venous'"), []).
Proof.
  intros Ha Hv. unfold process_image.
  apply String.eqb_neq in Ha, Hv. rewrite Ha, Hv. reflexivity.
Qed.

(** C5: an upload whose declared media type does not start with "image/" is
    rejected with HTTPException(400) before the upload is read or decoded. *)
Theorem process_image_non_image_content_type (r : request) (ct : string) :
  content_type r = Some ct -> String.prefix "image/" ct = false ->
  exists d, process_image L r = (inr (HTTPException 400 d), []).
Proof.
  intros Hct Hp. unfold process_image. rewrite Hct, Hp.
  destruct (String.eqb (phase r) "arterial"), (String.eqb (phase r) "venous");
    cbn; eexists; reflexivity.
Qed.

(** C10: with a valid phase and no declared media type, the check
    [image.content_type.startswith('image/')] raises AttributeError outside
    the try block: the request faults instead of getting a 400 response. *)
Theorem process_image_missing_content_type (r : request) :
  (phase r = "arterial" \/ phase r = "venous") -> content_type r = None ->
  process_image L r =
    (inr (AttributeError "'NoneType' object has no attribute 'startswith'"), []).
Proof.
  intros Hph Hct. unfold process_image. rewrite Hct.
  destruct Hph as [-> | ->]; reflexivity.
Qed.

(** C3: a request that reaches the filtering step (valid phase, image media
    type, upload decoded) runs the contrast filter and not the blur when its
    phase is "arterial", and the blur and not the contrast filter when it is
    "venous"; conversely, whenever a filter ran, the phase was the one of
    that filter and the other filter did not run. *)
Theorem phase_dispatch_exclusive (r : request) :
  let tr := trace_of (process_image L r) in
  ((phase r = "arterial" \/ phase r = "venous") ->
   (exists ct, content_type r = Some ct /\ String.prefix "image/" ct = true) ->
   (exists img, result_of (read_image_file L (file_bytes r)) = inl img) ->
   (phase r = "arterial" -> In EvContrast tr /\ ~ In EvBlur tr) /\
   (phase r = "venous" -> In EvBlur tr /\ ~ In EvContrast tr)) /\
  (In EvContrast tr \/ In EvBlur tr ->
   (phase r = "arterial" /\ In EvContrast tr /\ ~ In EvBlur tr) \/
   (phase r = "venous" /\ In EvBlur tr /\ ~ In EvContrast tr)).
Proof.
  cbv zeta. unfold result_of, trace_of. unfold_handler. split.
  - split_calls; cbn; intros Hph (ct & Hc1 & Hc2) (img & Hd);
      try discriminate; str_facts;
      repeat match goal with
             | H : orb _ _ = false |- _ => apply orb_false_iff in H as [? ?]
             end; str_facts;
      intuition (try congruence; try discriminate).
  - split_calls; cbn; str_facts;
      intuition (try congruence; try discriminate).
Qed.

End Validation.

(* ------------------------------------------------------------------------- *)
(** * Successful responses and error translation *)

Section Responses.

Context (L : Lib).

(** A successful request passed both checks, and its response is the output
    of [process] on the uploaded bytes and phase, as a PNG with the two
    descriptive headers. *)
Lemma process_image_success (r : request) (resp : response) :
  result_of (process_image L r) = inl resp ->
  (phase r = "arterial" \/ phase r = "venous") /\
  (exists ct, content_type r = Some ct /\ String.prefix "image/" ct = true) /\
  result_of (process L (file_bytes r) (phase r)) = inl (content resp) /\
  media_type resp = "image/png" /\
  headers resp =
    [("Content-Disposition", "inline; filename=processed_" ++ filename r);
     ("X-Processing-Phase", phase r)].
Proof.
  unfold result_of, process_image, process, dispatch_filter, read_image_file,
    increase_contrast, apply_gaussian_blur, encode_image, make_response.
  split_calls; cbn; intro H; try discriminate; str_facts;
    injection H as <-; cbn; repeat split; eauto.
Qed.

(** C9: a successful response carries the encoded bytes as "image/png" and
    exactly two descriptive headers: the processed file name, derived from
    the uploaded one, and the applied phase. *)
Theorem process_image_response_fields (r : request) (resp : response) :
  result_of (process_image L r) = inl resp ->
  media_type resp = "image/png" /\
  headers resp =
    [("Content-Disposition", "inline; filename=processed_" ++ filename r);
     ("X-Processing-Phase", phase r)] /\
  result_of (process L (file_bytes r) (phase r)) = inl (content resp).
Proof.
  intro H. apply process_image_success in H. tauto.
Qed.

(** C2: the body of a successful response depends on the uploaded bytes and
    the phase only: two successful requests that agree on them return
    identical bytes, whatever their file names or media types. *)
Theorem process_image_deterministic (r1 r2 : request) (resp1 resp2 : response) :
  file_bytes r1 = file_bytes r2 -> phase r1 = phase r2 ->
  result_of (process_image L r1) = inl resp1 ->
  result_of (process_image L r2) = inl resp2 ->
  content resp1 = content resp2.
Proof.
  intros Hb Hp H1 H2.
  apply process_image_success in H1 as (_ & _ & P1 & _).
  apply process_image_success in H2 as (_ & _ & P2 & _).
  rewrite <- Hb, <- Hp, P1 in P2. congruence.
Qed.

(** C6: when the decoder cannot produce a buffer from the uploaded bytes,
    the request ends in HTTPException(400) right after decoding: no filter
    or encoder runs and no response body exists. *)
Theorem process_image_decode_error (r : request) (ct : string) :
  (phase r = "arterial" \/ phase r = "venous") ->
  content_type r = Some ct -> String.prefix "image/" ct = true ->
  (forall img, result_of (read_image_file L (file_bytes r)) <> inl img) ->
  exists d, process_image L r = (inr (HTTPException 400 d), [EvRead; EvDecode]).
Proof.
  intros Hph Hct Hp Hdec.
  destruct (read_image_file_outcome L (file_bytes r)) as [[img Hr] | [d Hr]].
  - exfalso. apply (Hdec img). rewrite Hr. reflexivity.
  - exists d. unfold process_image. rewrite Hct, Hp.
    destruct Hph as [-> | ->]; cbn [String.eqb negb orb];
      unfold try_except, bind, emit; cbv zeta; rewrite Hr; reflexivity.
Qed.

(** [encode_image] fails, with an exception that is not an HTTPException,
    whenever [cv2.imencode] raises or reports [success = False]. *)
Lemma encode_image_failure (img : ndarray) :
  (imencode L ".png" img = None \/
   exists buf, imencode L ".png" img = Some (false, buf)) ->
  exists e, encode_image L img = (inr e, [EvEncode]) /\
            forall c d, e <> HTTPException c d.
Proof.
  intros [H | [buf H]]; unfold encode_image, bind, emit, call, raise;
    rewrite H; cbn; eexists; split; try reflexivity; discriminate.
Qed.

(** C7: when PNG encoding cannot complete, [encode_image] raises instead of
    returning bytes, and the handler turns the failure into
    HTTPException(500); no response body is produced. *)
Theorem process_image_encode_error (r : request) (ct : string)
    (img processed : ndarray) :
  (phase r = "arterial" \/ phase r = "venous") ->
  content_type r = Some ct -> String.prefix "image/" ct = true ->
  result_of (read_image_file L (file_bytes r)) = inl img ->
  result_of (dispatch_filter L (phase r) img) = inl processed ->
  (imencode L ".png" processed = None \/
   exists buf, imencode L ".png" processed = Some (false, buf)) ->
  (forall out, result_of (encode_image L processed) <> inl out) /\
  exists d, result_of (process_image L r) = inr (HTTPException 500 d).
Proof.
  intros Hph Hct Hp Hr Hf Henc.
  destruct (encode_image_failure processed Henc) as (e & He & Hne).
  split.
  { intro out. rewrite He. discriminate. }
  destruct (read_image_file L (file_bytes r)) as [s1 t1] eqn:Er.
  cbn in Hr. subst s1.
  destruct (dispatch_filter L (phase r) img) as [s2 t2] eqn:Ef.
  cbn in Hf. subst s2.
  unfold process_image. rewrite Hct, Hp.
  replace (negb (String.eqb (phase r) "arterial" || String.eqb (phase r) "venous"))
    with false by (destruct Hph as [-> | ->]; reflexivity).
  cbv zeta. rewrite (bind_inl _ _ tt [EvRead]) by reflexivity.
  rewrite (bind_inl _ _ img t1 Er).
  rewrite (bind_inl _ _ processed t2 Ef).
  rewrite (bind_inr _ _ e [EvEncode] He).
  cbn. destruct e; try (exfalso; eapply Hne; reflexivity);
    unfold try_except; cbn; eexists; reflexivity.
Qed.

End Responses.

(* ------------------------------------------------------------------------- *)
(** * Library contracts on shapes *)

(** What the code relies on from PIL, NumPy and OpenCV about the shape of
    the arrays it passes around (8-bit data throughout). *)
Record ShapeLaws (L : Lib) : Prop := {
  (* image.convert('RGB') yields an RGB image of the same size *)
  law_convert_rgb : forall im im',
    pil_convert L "RGB" im = Some im' ->
    pil_mode im' = "RGB" /\ pil_width im' = pil_width im /\
    pil_height im' = pil_height im;
  (* np.array of an RGB image has shape (height, width, 3) *)
  law_np_array_rgb : forall im a,
    pil_mode im = "RGB" -> np_array L im = Some a ->
    nd_shape a = [pil_height im; pil_width im; 3];
  (* cv2.cvtColor between 3-channel spaces keeps the shape; it asserts a
     non-empty source *)
  law_cvtColor_shape : forall a code h w a',
    nd_shape a = [h; w; 3] -> cvtColor L a code = Some a' ->
    nd_shape a' = [h; w; 3] /\ 0 < h /\ 0 < w;
  law_cvtColor_total : forall a code h w,
    nd_shape a = [h; w; 3] -> 0 < h -> 0 < w ->
    exists a', cvtColor L a code = Some a';
  (* cv2.split yields one (h, w) plane per channel *)
  law_split : forall a h w c,
    nd_shape a = [h; w; c] ->
    exists ls, cv_split L a = Some ls /\ length ls = c /\
               Forall (fun x => nd_shape x = [h; w]) ls;
  (* cv2.merge stacks equally sized planes *)
  law_merge : forall ls h w,
    ls <> [] -> Forall (fun x => nd_shape x = [h; w]) ls ->
    exists m, cv_merge L ls = Some m /\ nd_shape m = [h; w; length ls];
  (* CLAHE on a non-empty single-channel plane keeps its size *)
  law_clahe : forall clip gx gy l h w,
    0 < gx -> 0 < gy -> nd_shape l = [h; w] -> 0 < h -> 0 < w ->
    exists l', clahe_apply L clip (gx, gy) l = Some l' /\ nd_shape l' = [h; w];
  (* GaussianBlur with an odd kernel keeps the shape (border extrapolation) *)
  law_blur : forall a h w c kx ky sigma,
    Nat.odd kx = true -> Nat.odd ky = true ->
    nd_shape a = [h; w; c] -> 0 < h -> 0 < w ->
    exists a', GaussianBlur L a (kx, ky) sigma = Some a' /\ nd_shape a' = [h; w; c];
  (* imencode('.png') of a non-empty 3-channel array succeeds, and PIL reads
     the PNG back as an RGB image of the same size *)
  law_png_roundtrip : forall a h w,
    nd_shape a = [h; w; 3] -> 0 < h -> 0 < w ->
    exists buf im arr,
      imencode L ".png" a = Some (true, buf) /\
      Image_open L buf = Some im /\ pil_mode im = "RGB" /\
      pil_height im = h /\ pil_width im = w /\ np_array L im = Some arr
}.

Section Shapes.

Context (L : Lib) (HL : ShapeLaws L).

(** A decoded buffer has shape (height, width, 3) of the opened image. *)
Lemma read_image_file_shape (b : bytes) (img : ndarray) :
  result_of (read_image_file L b) = inl img ->
  exists im, Image_open L b = Some im /\
    nd_shape img = [pil_height im; pil_width im; 3] /\
    0 < pil_height im /\ 0 < pil_width im.
Proof.
  unfold result_of, read_image_file.
  split_calls; cbn; intro H; try discriminate; injection H as <-;
    eexists; split; try reflexivity; str_facts.
  - destruct (law_convert_rgb L HL _ _ E1) as (Hm & Hw & Hh).
    pose proof (law_np_array_rgb L HL _ _ Hm E2) as Hs.
    rewrite Hw, Hh in Hs.
    destruct (law_cvtColor_shape L HL _ _ _ _ _ Hs E3) as (? & ? & ?). auto.
  - pose proof (law_np_array_rgb L HL _ _ E0 E1) as Hs.
    destruct (law_cvtColor_shape L HL _ _ _ _ _ Hs E2) as (? & ? & ?). auto.
Qed.

Lemma increase_contrast_shape (x : ndarray) h w :
  nd_shape x = [h; w; 3] -> 0 < h -> 0 < w ->
  exists y, increase_contrast L x = (inl y, [EvContrast]) /\ nd_shape y = [h; w; 3].
Proof.
  intros Hx Hh Hw.
  destruct (law_cvtColor_total L HL x COLOR_BGR2LAB h w Hx Hh Hw) as [lab Hlab].
  destruct (law_cvtColor_shape L HL _ _ _ _ _ Hx Hlab) as (Hslab & _ & _).
  destruct (law_split L HL lab h w 3 Hslab) as (ls & Hls & Hlen & Hall).
  destruct ls as [| l [| a [| b [| ? ?]]]]; try discriminate.
  inversion Hall as [| ? ? Hl Hall1]; subst.
  destruct (law_clahe L HL (3 # 1)%Q 8 8 l h w ltac:(lia) ltac:(lia) Hl Hh Hw)
    as (l' & Hcl & Hsl').
  assert (Hall' : Forall (fun x => nd_shape x = [h; w]) [l'; a; b])
    by (constructor; [exact Hsl' | inversion Hall1; auto]).
  destruct (law_merge L HL [l'; a; b] h w ltac:(discriminate) Hall')
    as (m & Hm & Hsm).
  destruct (law_cvtColor_total L HL m COLOR_LAB2BGR h w Hsm Hh Hw) as [e He].
  destruct (law_cvtColor_shape L HL _ _ _ _ _ Hsm He) as (Hse & _ & _).
  exists e. split; [| exact Hse].
  unfold increase_contrast, bind, emit, call, ret.
  rewrite Hlab, Hls, Hcl, Hm, He. reflexivity.
Qed.

Lemma apply_gaussian_blur_shape (x : ndarray) h w c :
  nd_shape x = [h; w; c] -> 0 < h -> 0 < w ->
  exists y, apply_gaussian_blur L x = (inl y, [EvBlur]) /\ nd_shape y = [h; w; c].
Proof.
  intros Hx Hh Hw.
  destruct (law_blur L HL x h w c 15 15 0%Q eq_refl eq_refl Hx Hh Hw) as (y & Hy & Hsy).
  exists y. split; [| exact Hsy].
  unfold apply_gaussian_blur, bind, emit, call, ret. rewrite Hy. reflexivity.
Qed.

(** The filter selected for either phase keeps the shape of a non-empty
    3-channel buffer. *)
Lemma dispatch_filter_shape (ph : string) (x : ndarray) h w :
  nd_shape x = [h; w; 3] -> 0 < h -> 0 < w ->
  exists y t, dispatch_filter L ph x = (inl y, t) /\ nd_shape y = [h; w; 3].
Proof.
  intros Hx Hh Hw. unfold dispatch_filter.
  destruct (String.eqb ph "arterial").
  - destruct (increase_contrast_shape x h w Hx Hh Hw) as (y & Hy & Hs). eauto.
  - destruct (apply_gaussian_blur_shape x h w 3 Hx Hh Hw) as (y & Hy & Hs). eauto.
Qed.

(** C1: for bytes the decoder accepts and either phase, [process] returns
    PNG bytes, which the decoder reads back as a buffer of the same height,
    width and channel count; and each filter keeps the height, width and
    channel count of a (non-empty, 3-channel) image buffer. *)
Theorem process_preserves_dimensions (b : bytes) (ph : string) (img : ndarray) :
  (ph = "arterial" \/ ph = "venous") ->
  result_of (read_image_file L b) = inl img ->
  (exists out img',
     result_of (process L b ph) = inl out /\
     result_of (read_image_file L out) = inl img' /\
     nd_shape img' = nd_shape img) /\
  (forall x h w, nd_shape x = [h; w; 3] -> 0 < h -> 0 < w ->
     (exists y, result_of (increase_contrast L x) = inl y /\ nd_shape y = nd_shape x) /\
     (exists y, result_of (apply_gaussian_blur L x) = inl y /\ nd_shape y = nd_shape x)).
Proof.
  intros _ Hdec. split.
  - destruct (read_image_file_shape b img Hdec) as (im & Him & Hs & Hh & Hw).
    assert (Hr : read_image_file L b = (inl img, [EvDecode])).
    { destruct (read_image_file_outcome L b) as [[i Hr] | [d Hr]];
        rewrite Hr in Hdec |- *; cbn in Hdec; congruence. }
    destruct (dispatch_filter_shape ph img _ _ Hs Hh Hw) as (y & t & Hf & Hy).
    destruct (law_png_roundtrip L HL y _ _ Hy Hh Hw)
      as (buf & im' & arr & Henc & Hopen & Hmode & Hh' & Hw' & Harr).
    assert (Harr_s : nd_shape arr = [pil_height im; pil_width im; 3]).
    { rewrite (law_np_array_rgb L HL im' arr Hmode Harr), Hh', Hw'. reflexivity. }
    destruct (law_cvtColor_total L HL arr COLOR_RGB2BGR _ _ Harr_s Hh Hw) as [img' Himg'].
    destruct (law_cvtColor_shape L HL _ _ _ _ _ Harr_s Himg') as (Hs' & _ & _).
    exists buf, img'. repeat split.
    + unfold process. rewrite (bind_inl _ _ img _ Hr). cbn [fst].
      rewrite (bind_inl _ _ y t Hf). cbn [fst].
      unfold encode_image, bind, emit, call, ret. rewrite Henc. reflexivity.
    + unfold read_image_file, bind, try_except, emit, call, ret.
      rewrite Hopen, Hmode. cbn. rewrite Harr, Himg'. reflexivity.
    + rewrite Hs', Hs. reflexivity.
  - intros x h w Hx Hh Hw. split.
    + destruct (increase_contrast_shape x h w Hx Hh Hw) as (y & Hy & Hs).
      exists y. rewrite Hy, Hs, Hx. split; reflexivity.
    + destruct (apply_gaussian_blur_shape x h w 3 Hx Hh Hw) as (y & Hy & Hs).
      exists y. rewrite Hy, Hs, Hx. split; reflexivity.
Qed.

(** C8: whatever the mode of the opened image (palette, grayscale, RGBA,
    ...), a decoded buffer has exactly 3 channels and the image's size; and
    the decoder accepts every image PIL opens and loads, whatever its
    container format (JPEG and PNG included: [pil_format] is never
    inspected). *)
Theorem read_image_file_three_channels (b : bytes) :
  (forall img, result_of (read_image_file L b) = inl img ->
     exists im, Image_open L b = Some im /\
       nd_shape img = [pil_height im; pil_width im; 3]) /\
  (forall im im' arr,
     Image_open L b = Some im ->
     (pil_mode im = "RGB" /\ im' = im \/
      pil_mode im <> "RGB" /\ pil_convert L "RGB" im = Some im') ->
     np_array L im' = Some arr -> 0 < pil_height im -> 0 < pil_width im ->
     exists img, result_of (read_image_file L b) = inl img /\
       nd_shape img = [pil_height im; pil_width im; 3]).
Proof.
  split.
  - intros img H. destruct (read_image_file_shape b img H) as (im & ? & ? & _). eauto.
  - intros im im' arr Hopen Hmode Harr Hh Hw.
    assert (Hs : nd_shape arr = [pil_height im; pil_width im; 3]).
    { destruct Hmode as [[Hm ->] | [Hm Hc]].
      - exact (law_np_array_rgb L HL im arr Hm Harr).
      - destruct (law_convert_rgb L HL _ _ Hc) as (Hm' & Hw' & Hh').
        rewrite (law_np_array_rgb L HL im' arr Hm' Harr), Hw', Hh'. reflexivity. }
    destruct (law_cvtColor_total L HL arr COLOR_RGB2BGR _ _ Hs Hh Hw) as [img Himg].
    destruct (law_cvtColor_shape L HL _ _ _ _ _ Hs Himg) as (Hs' & _ & _).
    exists img. split; [| exact Hs'].
    unfold read_image_file, bind, try_except, emit, call, ret. rewrite Hopen.
    destruct Hmode as [[Hm ->] | [Hm Hc]].
    + apply String.eqb_eq in Hm. rewrite Hm. cbn. rewrite Harr, Himg. reflexivity.
    + apply String.eqb_neq in Hm. rewrite Hm. cbn. rewrite Hc, Harr, Himg. reflexivity.
Qed.

End Shapes.

(* ------------------------------------------------------------------------- *)
(** * A concrete library satisfying the contracts

    A toy image format: [x02] optionally marks a palette image, then the
    height and the width in unary ([x01] bytes) separated by [x00].  It is
    used to run the handler on concrete requests. *)

Module Toy.

Fixpoint count_ones (b : bytes) : nat * bytes :=
  match b with
  | x01 :: t => let (n, r) := count_ones t in (S n, r)
  | _ => (0, b)
  end.

Definition encode (h w : nat) : bytes := app (repeat x01 h) (x00 :: repeat x01 w).

Definition open_rgb (b : bytes) : option pil_image :=
  let (h, r) := count_ones b in
  match r with
  | x00 :: r' =>
      let (w, r'') := count_ones r' in
      match r'' with
      | [] => if Nat.ltb 0 h && Nat.ltb 0 w then Some (mk_pil "RGB" w h "PNG" []) else None
      | _ => None
      end
  | _ => None
  end.

Definition open (b : bytes) : option pil_image :=
  match b with
  | x02 :: rest =>
      match open_rgb rest with
      | Some im => Some (mk_pil "P" (pil_width im) (pil_height im) "PNG" [])
      | None => None
      end
  | _ => open_rgb b
  end.

Definition convert (mode : string) (im : pil_image) : option pil_image :=
  Some (mk_pil mode (pil_width im) (pil_height im) (pil_format im) (pil_payload im)).

Definition to_array (im : pil_image) : option ndarray :=
  Some (mk_nd [pil_height im; pil_width im; 3] []).

Definition cvt (a : ndarray) (code : color_code) : option ndarray :=
  match nd_shape a with
  | [h; w; 3] => if Nat.ltb 0 h && Nat.ltb 0 w then Some a else None
  | _ => None
  end.

Definition split (a : ndarray) : option (list ndarray) :=
  match nd_shape a with
  | [h; w; c] => Some (repeat (mk_nd [h; w] []) c)
  | _ => None
  end.

Definition merge (ls : list ndarray) : option ndarray :=
  match ls with
  | [] => None
  | x :: _ =>
      match nd_shape x with
      | [h; w] => Some (mk_nd [h; w; length ls] [])
      | _ => None
      end
  end.

Definition imencode_png (ext : string) (a : ndarray) : option (bool * bytes) :=
  match nd_shape a with
  | [h; w; 3] => Some (true, encode h w)
  | _ => None
  end.

Definition lib : Lib :=
  mk_lib open convert to_array cvt split merge
    (fun _ _ l => Some l) (fun a _ _ => Some a) imencode_png (fun _ => true).

(** The same library with an encoder reporting [success = False]. *)
Definition lib_failing_encoder : Lib :=
  mk_lib open convert to_array cvt split merge
    (fun _ _ l => Some l) (fun a _ _ => Some a)
    (fun _ _ => Some (false, [])) (fun _ => true).

Lemma count_ones_encode n rest :
  count_ones (app (repeat x01 n) (x00 :: rest)) = (n, x00 :: rest).
Proof. induction n as [| n IH]; cbn; [reflexivity | rewrite IH; reflexivity]. Qed.

Lemma count_ones_repeat n : count_ones (repeat x01 n) = (n, []).
Proof. induction n as [| n IH]; cbn; [reflexivity | rewrite IH; reflexivity]. Qed.

Lemma open_encode h w :
  0 < h -> 0 < w -> open (encode h w) = Some (mk_pil "RGB" w h "PNG" []).
Proof.
  intros Hh Hw.
  assert (Hr : open_rgb (encode h w) = Some (mk_pil "RGB" w h "PNG" [])).
  { unfold open_rgb, encode. rewrite count_ones_encode, count_ones_repeat.
    apply Nat.ltb_lt in Hh, Hw. rewrite Hh, Hw. reflexivity. }
  destruct h as [| h]; [lia |]. exact Hr.
Qed.

Lemma laws : ShapeLaws lib.
Proof.
  constructor; cbn.
  - intros im im' H. injection H as <-. cbn. auto.
  - intros im a _ H. injection H as <-. reflexivity.
  - intros a code h w a' Hs H. unfold cvt in H. rewrite Hs in H.
    destruct (Nat.ltb 0 h && Nat.ltb 0 w) eqn:E; [| discriminate].
    injection H as <-. apply andb_true_iff in E as [E1 E2].
    apply Nat.ltb_lt in E1, E2. auto.
  - intros a code h w Hs Hh Hw. unfold cvt. rewrite Hs.
    destruct h as [| h]; [lia |]. destruct w as [| w]; [lia |]. cbn. eauto.
  - intros a h w c Hs. unfold split. rewrite Hs. eexists. split; [reflexivity |].
    split; [apply repeat_length |].
    apply Forall_forall. intros x Hx. apply repeat_spec in Hx. subst. reflexivity.
  - intros ls h w Hne Hall. destruct ls as [| x ls]; [congruence |].
    inversion Hall; subst. unfold merge. cbn. rewrite H1. eauto.
  - intros clip gx gy l h w _ _ Hs _ _. eauto.
  - intros a h w c kx ky sigma _ _ Hs _ _. eauto.
  - intros a h w Hs Hh Hw. unfold imencode_png. rewrite Hs.
    do 3 eexists. repeat split; [rewrite open_encode by assumption; reflexivity | ..];
      reflexivity.
Qed.

(** The same library with a GaussianBlur that raises. *)
Definition lib_failing_blur : Lib :=
  mk_lib open convert to_array cvt split merge
    (fun _ _ l => Some l) (fun _ _ _ => None) imencode_png (fun _ => true).


(** The same library with header values that latin-1 cannot encode. *)
Definition lib_unencodable_headers : Lib :=
  mk_lib open convert to_array cvt split merge
    (fun _ _ l => Some l) (fun a _ _ => Some a) imencode_png (fun _ => false).

End Toy.

(* ------------------------------------------------------------------------- *)
(** * Further properties of the handler *)

(** [read_image_file] with a different [image.convert]. *)
Definition with_convert (L : Lib) (conv : string -> pil_image -> option pil_image) : Lib :=
  mk_lib (Image_open L) conv (np_array L) (cvtColor L) (cv_split L) (cv_merge L)
    (clahe_apply L) (GaussianBlur L) (imencode L) (latin1_encodable L).

Ltac unfold_all_handler :=
  unfold result_of, trace_of, process_image, dispatch_filter, read_image_file,
    increase_contrast, apply_gaussian_blur, encode_image, make_response.

Ltac bool_facts :=
  str_facts;
  repeat match goal with
  | H : orb _ _ = true |- _ => apply orb_true_iff in H as [H | H]
  | H : orb _ _ = false |- _ => apply orb_false_iff in H as [? ?]
  end; str_facts.

Section Extras.

Context (L : Lib).

(** The handler ends in one of four ways: a response, HTTPException(400),
    HTTPException(500), or (only for a valid phase and no declared media
    type) the AttributeError of [content_type.startswith]. *)
Theorem process_image_outcomes (r : request) :
  (exists resp, result_of (process_image L r) = inl resp) \/
  (exists d, result_of (process_image L r) = inr (HTTPException 400 d)) \/
  (exists d, result_of (process_image L r) = inr (HTTPException 500 d)) \/
  ((phase r = "arterial" \/ phase r = "venous") /\ content_type r = None /\
   result_of (process_image L r) =
     inr (AttributeError "'NoneType' object has no attribute 'startswith'")).
Proof.
  unfold_all_handler. split_calls; cbn; bool_facts;
    solve [ left; eauto
          | right; left; eauto
          | right; right; left; eauto
          | right; right; right; repeat split; auto ].
Qed.

(** A 400 response is produced before any filter or the encoder runs. *)
Theorem process_image_400_before_filtering (r : request) (d : string) :
  result_of (process_image L r) = inr (HTTPException 400 d) ->
  ~ In EvContrast (trace_of (process_image L r)) /\
  ~ In EvBlur (trace_of (process_image L r)) /\
  ~ In EvEncode (trace_of (process_image L r)).
Proof.
  unfold_all_handler. split_calls; cbn; intro H; try discriminate;
    intuition discriminate.
Qed.

(** A 500 response only happens after the upload was decoded. *)
Theorem process_image_500_after_decoding (r : request) (d : string) :
  result_of (process_image L r) = inr (HTTPException 500 d) ->
  exists img, result_of (read_image_file L (file_bytes r)) = inl img.
Proof.
  unfold_all_handler. split_calls; cbn; intro H; try discriminate; eauto.
Qed.

(** Once validation passes, the steps run in the order read, decode,
    filter, encode, and the trace stops exactly at the first failing step:
    a failed decode ends it after the decode, a failed filter after the
    filter, and the encoder runs only on a filtered buffer. *)
Theorem process_image_trace_stops (r : request) (ct : string) :
  (phase r = "arterial" \/ phase r = "venous") ->
  content_type r = Some ct -> String.prefix "image/" ct = true ->
  trace_of (process_image L r) =
    EvRead :: EvDecode ::
    match result_of (read_image_file L (file_bytes r)) with
    | inr _ => []
    | inl img =>
        (if String.eqb (phase r) "arterial" then EvContrast else EvBlur) ::
        match result_of (dispatch_filter L (phase r) img) with
        | inr _ => []
        | inl _ => [EvEncode]
        end
    end.
Proof.
  intros Hph Hct Hp. revert Hph Hct Hp.
  unfold_all_handler. split_calls; cbn; intros Hph Hct Hp;
    try discriminate; try reflexivity; str_facts;
    repeat match goal with
           | H : orb _ _ = false |- _ => apply orb_false_iff in H as [? ?]
           end;
    str_facts; destruct Hph; congruence.
Qed.

(** A successful request went through all four steps. *)
Theorem process_image_success_trace (r : request) (resp : response) :
  result_of (process_image L r) = inl resp ->
  trace_of (process_image L r) =
    [EvRead; EvDecode;
     if String.eqb (phase r) "arterial" then EvContrast else EvBlur; EvEncode].
Proof.
  unfold_all_handler. split_calls; cbn; intro H; try discriminate; reflexivity.
Qed.

(** The filters raise only library errors or the unpacking ValueError,
    never an HTTPException. *)
Lemma dispatch_filter_not_http (ph : string) (img : ndarray) e t c d :
  dispatch_filter L ph img = (inr e, t) -> e <> HTTPException c d.
Proof.
  unfold dispatch_filter, increase_contrast, apply_gaussian_blur.
  split_calls; cbn; intro H; inversion H; subst; discriminate.
Qed.

(** An exception raised by the selected filter becomes
    HTTPException(500) carrying its message. *)
Theorem process_image_filter_error (r : request) (ct : string) (img : ndarray) (e : exn) :
  (phase r = "arterial" \/ phase r = "venous") ->
  content_type r = Some ct -> String.prefix "image/" ct = true ->
  result_of (read_image_file L (file_bytes r)) = inl img ->
  result_of (dispatch_filter L (phase r) img) = inr e ->
  result_of (process_image L r) =
    inr (HTTPException 500 ("Error processing image: " ++ str_exn e)).
Proof.
  intros Hph Hct Hp Hr Hf.
  destruct (read_image_file L (file_bytes r)) as [s1 t1] eqn:Er.
  cbn in Hr. subst s1.
  destruct (dispatch_filter L (phase r) img) as [s2 t2] eqn:Ef.
  cbn in Hf. subst s2.
  unfold process_image. rewrite Hct, Hp.
  replace (negb (String.eqb (phase r) "arterial" || String.eqb (phase r) "venous"))
    with false by (destruct Hph as [-> | ->]; reflexivity).
  cbv zeta. rewrite (bind_inl _ _ tt [EvRead]) by reflexivity.
  rewrite (bind_inl _ _ img t1 Er).
  rewrite (bind_inr _ _ e t2 Ef).
  cbn. destruct e as [c d | | | |];
    [exfalso; exact (dispatch_filter_not_http _ _ _ _ c d Ef eq_refl) | ..];
    reflexivity.
Qed.

(** Building the Response is inside the try block: when the file-name header
    cannot be encoded as latin-1, the request fails with HTTPException(500)
    although decoding, filtering and encoding all succeeded. *)
Theorem process_image_header_encoding_error (r : request) (ct : string)
    (img processed : ndarray) (out : bytes) :
  (phase r = "arterial" \/ phase r = "venous") ->
  content_type r = Some ct -> String.prefix "image/" ct = true ->
  result_of (read_image_file L (file_bytes r)) = inl img ->
  result_of (dispatch_filter L (phase r) img) = inl processed ->
  result_of (encode_image L processed) = inl out ->
  latin1_encodable L ("inline; filename=processed_" ++ filename r) = false ->
  process_image L r =
    (inr (HTTPException 500 "Error processing image: UnicodeEncodeError"),
     [EvRead; EvDecode;
      if String.eqb (phase r) "arterial" then EvContrast else EvBlur; EvEncode]).
Proof.
  intros Hph Hct Hp Hr Hf He Hl.
  destruct (read_image_file_outcome L (file_bytes r)) as [[i Er] | [d Er]];
    rewrite Er in Hr; cbn in Hr; [injection Hr as -> | discriminate].
  destruct (dispatch_filter L (phase r) img) as [s2 t2] eqn:Ef.
  cbn in Hf. subst s2.
  assert (Ht2 : t2 = [if String.eqb (phase r) "arterial" then EvContrast else EvBlur]).
  { pose proof (f_equal snd Ef) as T. cbn in T. rewrite <- T. unfold dispatch_filter.
    destruct (String.eqb (phase r) "arterial");
      [apply increase_contrast_trace | apply apply_gaussian_blur_trace]. }
  destruct (encode_image L processed) as [s3 t3] eqn:Ee.
  cbn in He. subst s3.
  assert (Ht3 : t3 = [EvEncode]).
  { pose proof (encode_image_trace L processed) as T. rewrite Ee in T. exact T. }
  unfold process_image. rewrite Hct, Hp.
  replace (negb (String.eqb (phase r) "arterial" || String.eqb (phase r) "venous"))
    with false by (destruct Hph as [-> | ->]; reflexivity).
  cbv zeta. rewrite (bind_inl _ _ tt [EvRead]) by reflexivity.
  rewrite (bind_inl _ _ img _ Er).
  rewrite (bind_inl _ _ processed t2 Ef).
  rewrite (bind_inl _ _ out t3 Ee).
  unfold make_response. cbn [forallb snd]. rewrite Hl. cbn.
  subst t2 t3. reflexivity.
Qed.

(** Every declared media type starting with "image/" (image/svg+xml
    included; the test is a case-sensitive prefix test) passes validation
    for a valid phase: the upload is read and decoded. *)
Theorem process_image_image_prefix_decodes (r : request) (ct : string) :
  (phase r = "arterial" \/ phase r = "venous") ->
  content_type r = Some ct -> String.prefix "image/" ct = true ->
  exists t, trace_of (process_image L r) = EvRead :: EvDecode :: t.
Proof.
  intros Hph Hct Hp.
  destruct (read_image_file_outcome L (file_bytes r)) as [[img Er] | [d Er]];
  unfold process_image; rewrite Hct, Hp;
  (replace (negb (String.eqb (phase r) "arterial" || String.eqb (phase r) "venous"))
     with false by (destruct Hph as [-> | ->]; reflexivity));
  cbv zeta; rewrite (bind_inl _ _ tt [EvRead]) by reflexivity.
  - rewrite (bind_inl _ _ img _ Er). unfold try_except.
    destruct (bind (dispatch_filter L (phase r) img) _) as [s t].
    destruct s; cbn; [eauto |].
    destruct (match e with | HTTPException _ _ => _ | _ => _ end); cbn; eauto.
  - rewrite (bind_inr _ _ _ _ Er). cbn. eauto.
Qed.



(** An image PIL opens in mode "RGB" is never converted: the decoder's
    outcome does not depend on [image.convert]. *)
Theorem read_image_file_rgb_no_convert (b : bytes) (im : pil_image)
    (conv : string -> pil_image -> option pil_image) :
  Image_open L b = Some im -> pil_mode im = "RGB" ->
  read_image_file (with_convert L conv) b = read_image_file L b.
Proof.
  intros Ho Hm. unfold read_image_file, bind, try_except, emit, call, ret.
  cbn [Image_open with_convert]. rewrite Ho. cbn.
  apply String.eqb_eq in Hm. rewrite Hm. reflexivity.
Qed.

(** A non-RGB image whose conversion to RGB raises is rejected with
    HTTPException(400). *)
Theorem read_image_file_convert_error (b : bytes) (im : pil_image) :
  Image_open L b = Some im -> pil_mode im <> "RGB" ->
  pil_convert L "RGB" im = None ->
  read_image_file L b =
    (inr (HTTPException 400 "Invalid image file: convert"), [EvDecode]).
Proof.
  intros Ho Hm Hc. unfold read_image_file, bind, try_except, emit, call, ret, raise.
  rewrite Ho. cbn. apply String.eqb_neq in Hm. rewrite Hm. cbn. rewrite Hc.
  reflexivity.
Qed.

(** The decoder's HTTPException(400) reaches the client unchanged: the
    handler re-raises it with the decoder's own detail. *)
Theorem process_image_forwards_decode_error (r : request) (ct d : string) :
  (phase r = "arterial" \/ phase r = "venous") ->
  content_type r = Some ct -> String.prefix "image/" ct = true ->
  result_of (read_image_file L (file_bytes r)) = inr (HTTPException 400 d) ->
  result_of (process_image L r) = inr (HTTPException 400 d).
Proof.
  intros Hph Hct Hp Hr.
  destruct (read_image_file L (file_bytes r)) as [s1 t1] eqn:Er.
  cbn in Hr. subst s1.
  unfold process_image. rewrite Hct, Hp.
  replace (negb (String.eqb (phase r) "arterial" || String.eqb (phase r) "venous"))
    with false by (destruct Hph as [-> | ->]; reflexivity).
  cbv zeta. rewrite (bind_inl _ _ tt [EvRead]) by reflexivity.
  rewrite (bind_inr _ _ _ t1 Er). reflexivity.
Qed.

End Extras.

(* ------------------------------------------------------------------------- *)
(** * The handler on concrete requests *)

Definition scan_bytes : bytes := Toy.encode 2 3.
Definition palette_bytes : bytes := x02 :: Toy.encode 2 3.

Definition req (fname : string) (ct : option string) (b : bytes) (ph : string)
  : request := mk_request fname ct b ph.

Example venous_scan_ok :
  result_of (process_image Toy.lib (req "scan.png" (Some "image/png") scan_bytes "venous"))
  = inl (mk_response (Toy.encode 2 3) "image/png"
           [("Content-Disposition", "inline; filename=processed_scan.png");
            ("X-Processing-Phase", "venous")]).
Proof. reflexivity. Qed.

Example arterial_trace :
  trace_of (process_image Toy.lib (req "scan.png" (Some "image/png") scan_bytes "arterial"))
  = [EvRead; EvDecode; EvContrast; EvEncode].
Proof. reflexivity. Qed.

Example palette_decoded_rgb :
  result_of (read_image_file Toy.lib palette_bytes) = inl (mk_nd [2; 3; 3] []).
Proof. reflexivity. Qed.

(** C4 witness. *)
Lemma process_image_invalid_phase_witness :
  process_image Toy.lib (req "scan.png" (Some "image/png") scan_bytes "capillary") =
    (inr (HTTPException 400 "Invalid phase. Must be 'arterial' or 'venous'"), []).
Proof.
  apply (process_image_invalid_phase Toy.lib
           (req "scan.png" (Some "image/png") scan_bytes "capillary"));
    discriminate.
Defined.

(** C5 witness. *)
Lemma process_image_non_image_content_type_witness :
  exists d, process_image Toy.lib (req "notes.txt" (Some "text/plain") scan_bytes "venous")
            = (inr (HTTPException 400 d), []).
Proof.
  apply (process_image_non_image_content_type Toy.lib
           (req "notes.txt" (Some "text/plain") scan_bytes "venous") "text/plain");
    reflexivity.
Defined.

(** C10 witness. *)
Lemma process_image_missing_content_type_witness :
  process_image Toy.lib (req "scan.png" None scan_bytes "arterial") =
    (inr (AttributeError "'NoneType' object has no attribute 'startswith'"), []).
Proof.
  apply (process_image_missing_content_type Toy.lib (req "scan.png" None scan_bytes "arterial"));
    [left |]; reflexivity.
Defined.

(** C3 witness: an arterial request that passes validation and decoding. *)
Lemma phase_dispatch_exclusive_witness :
  let tr := trace_of (process_image Toy.lib
                        (req "scan.png" (Some "image/png") scan_bytes "arterial")) in
  In EvContrast tr /\ ~ In EvBlur tr.
Proof.
  destruct (phase_dispatch_exclusive Toy.lib
              (req "scan.png" (Some "image/png") scan_bytes "arterial")) as [H _].
  apply H; [left; reflexivity | exists "image/png"; split; reflexivity
           | eexists; reflexivity | reflexivity].
Defined.

(** C9 witness. *)
Lemma process_image_response_fields_witness :
  exists resp,
    result_of (process_image Toy.lib
                 (req "scan.png" (Some "image/png") scan_bytes "venous")) = inl resp /\
    media_type resp = "image/png" /\
    headers resp =
      [("Content-Disposition", "inline; filename=processed_scan.png");
       ("X-Processing-Phase", "venous")] /\
    result_of (process Toy.lib scan_bytes "venous") = inl (content resp).
Proof.
  eexists. split; [reflexivity |].
  apply (process_image_response_fields Toy.lib
           (req "scan.png" (Some "image/png") scan_bytes "venous")).
  reflexivity.
Defined.

(** C2 witness: two uploads of the same bytes under different names and
    media types. *)
Lemma process_image_deterministic_witness :
  exists resp1 resp2,
    result_of (process_image Toy.lib
                 (req "a.png" (Some "image/png") scan_bytes "arterial")) = inl resp1 /\
    result_of (process_image Toy.lib
                 (req "b.jpg" (Some "image/jpeg") scan_bytes "arterial")) = inl resp2 /\
    content resp1 = content resp2.
Proof.
  do 2 eexists. split; [reflexivity |]. split; [reflexivity |].
  apply (process_image_deterministic Toy.lib
           (req "a.png" (Some "image/png") scan_bytes "arterial")
           (req "b.jpg" (Some "image/jpeg") scan_bytes "arterial") _ _ eq_refl eq_refl);
    reflexivity.
Defined.

(** C6 witness: a zero-byte upload declared as PNG. *)
Lemma process_image_decode_error_witness :
  exists d, process_image Toy.lib (req "empty.png" (Some "image/png") [] "venous") =
              (inr (HTTPException 400 d), [EvRead; EvDecode]).
Proof.
  apply (process_image_decode_error Toy.lib
           (req "empty.png" (Some "image/png") [] "venous") "image/png");
    [right; reflexivity | reflexivity | reflexivity |].
  intros img H. vm_compute in H. discriminate.
Defined.

(** C7 witness: an encoder reporting [success = False]. *)
Lemma process_image_encode_error_witness :
  (forall out, result_of (encode_image Toy.lib_failing_encoder (mk_nd [2; 3; 3] [])) <> inl out) /\
  exists d, result_of (process_image Toy.lib_failing_encoder
                         (req "scan.png" (Some "image/png") scan_bytes "venous"))
            = inr (HTTPException 500 d).
Proof.
  apply (process_image_encode_error Toy.lib_failing_encoder
           (req "scan.png" (Some "image/png") scan_bytes "venous") "image/png"
           (mk_nd [2; 3; 3] []) (mk_nd [2; 3; 3] []));
    [right; reflexivity | reflexivity | reflexivity | reflexivity | reflexivity |].
  right. exists []. reflexivity.
Defined.

(** C1 witness. *)
Lemma process_preserves_dimensions_witness :
  exists out img',
    result_of (process Toy.lib scan_bytes "venous") = inl out /\
    result_of (read_image_file Toy.lib out) = inl img' /\
    nd_shape img' = [2; 3; 3].
Proof.
  destruct (process_preserves_dimensions Toy.lib Toy.laws scan_bytes "venous"
              (mk_nd [2; 3; 3] []) (or_intror eq_refl) eq_refl)
    as [(out & img' & H1 & H2 & H3) _].
  exists out, img'. auto.
Defined.

(** C8 witness: a palette image is decoded to a 3-channel buffer. *)
Lemma read_image_file_three_channels_witness :
  exists img, result_of (read_image_file Toy.lib palette_bytes) = inl img /\
    nd_shape img = [2; 3; 3].
Proof.
  destruct (read_image_file_three_channels Toy.lib Toy.laws palette_bytes) as [_ H].
  apply (H (mk_pil "P" 3 2 "PNG" []) (mk_pil "RGB" 3 2 "PNG" [])
           (mk_nd [2; 3; 3] []));
    [reflexivity | right; split; [discriminate | reflexivity]
    | reflexivity | cbn; lia | cbn; lia].
Defined.

Definition scan_req (ph : string) : request :=
  req "scan.png" (Some "image/png") scan_bytes ph.

Lemma process_image_400_before_filtering_witness :
  let r := req "empty.png" (Some "image/png") [] "arterial" in
  ~ In EvContrast (trace_of (process_image Toy.lib r)) /\
  ~ In EvBlur (trace_of (process_image Toy.lib r)) /\
  ~ In EvEncode (trace_of (process_image Toy.lib r)).
Proof.
  apply (process_image_400_before_filtering Toy.lib
           (req "empty.png" (Some "image/png") [] "arterial")
           "Invalid image file: Image.open").
  reflexivity.
Defined.

Lemma process_image_500_after_decoding_witness :
  exists img, result_of (read_image_file Toy.lib_failing_blur scan_bytes) = inl img.
Proof.
  apply (process_image_500_after_decoding Toy.lib_failing_blur (scan_req "venous")
           "Error processing image: GaussianBlur").
  reflexivity.
Defined.

Lemma process_image_success_trace_witness :
  trace_of (process_image Toy.lib (scan_req "venous")) =
    [EvRead; EvDecode; EvBlur; EvEncode].
Proof.
  apply (process_image_success_trace Toy.lib (scan_req "venous")
           (mk_response (Toy.encode 2 3) "image/png"
              [("Content-Disposition", "inline; filename=processed_scan.png");
               ("X-Processing-Phase", "venous")])).
  reflexivity.
Defined.

Lemma process_image_filter_error_witness :
  result_of (process_image Toy.lib_failing_blur (scan_req "venous")) =
    inr (HTTPException 500 ("Error processing image: " ++ str_exn (LibError "GaussianBlur"))).
Proof.
  apply (process_image_filter_error Toy.lib_failing_blur (scan_req "venous") "image/png"
           (mk_nd [2; 3; 3] []) (LibError "GaussianBlur"));
    [right | ..]; reflexivity.
Defined.

Lemma process_image_header_encoding_error_witness :
  process_image Toy.lib_unencodable_headers (scan_req "arterial") =
    (inr (HTTPException 500 "Error processing image: UnicodeEncodeError"),
     [EvRead; EvDecode; EvContrast; EvEncode]).
Proof.
  apply (process_image_header_encoding_error Toy.lib_unencodable_headers
           (scan_req "arterial") "image/png" (mk_nd [2; 3; 3] []) (mk_nd [2; 3; 3] [])
           (Toy.encode 2 3));
    [left | ..]; reflexivity.
Defined.

Lemma process_image_image_prefix_decodes_witness :
  exists t, trace_of (process_image Toy.lib
                        (req "scan.svg" (Some "image/svg+xml") scan_bytes "venous"))
            = EvRead :: EvDecode :: t.
Proof.
  apply (process_image_image_prefix_decodes Toy.lib
           (req "scan.svg" (Some "image/svg+xml") scan_bytes "venous") "image/svg+xml");
    [right | ..]; reflexivity.
Defined.



Lemma read_image_file_rgb_no_convert_witness :
  read_image_file (with_convert Toy.lib (fun _ _ => None)) scan_bytes =
    read_image_file Toy.lib scan_bytes.
Proof.
  apply (read_image_file_rgb_no_convert Toy.lib scan_bytes (mk_pil "RGB" 3 2 "PNG" []));
    reflexivity.
Defined.

Lemma read_image_file_convert_error_witness :
  read_image_file (with_convert Toy.lib (fun _ _ => None)) palette_bytes =
    (inr (HTTPException 400 "Invalid image file: convert"), [EvDecode]).
Proof.
  apply (read_image_file_convert_error (with_convert Toy.lib (fun _ _ => None))
           palette_bytes (mk_pil "P" 3 2 "PNG" [])); [reflexivity | discriminate | reflexivity].
Defined.

Lemma process_image_forwards_decode_error_witness :
  result_of (process_image Toy.lib (req "empty.png" (Some "image/png") [] "venous")) =
    inr (HTTPException 400 "Invalid image file: Image.open").
Proof.
  apply (process_image_forwards_decode_error Toy.lib
           (req "empty.png" (Some "image/png") [] "venous") "image/png");
    [right | ..]; reflexivity.
Defined.

Lemma process_image_trace_stops_witness :
  trace_of (process_image Toy.lib_failing_blur (scan_req "venous")) =
    [EvRead; EvDecode; EvBlur].
Proof.
  rewrite (process_image_trace_stops Toy.lib_failing_blur (scan_req "venous") "image/png"
             (or_intror eq_refl) eq_refl eq_refl).
  reflexivity.
Defined.
